(** * Space Report: a shallow embedding of [pages/2_Application_Drive.py]

    The page reads disk-space readings into a pandas dataframe, filters them
    by date range and drive, aggregates the latest reading per drive, maps
    free-space percentages to severity bands, computes per-drive growth and
    offers a free-text search over the table.

    Modelling choices:
    - a dataframe is a list of rows in index order;
    - [Date] is a pandas timestamp, kept as a whole number of seconds since
      the epoch ([Z]); [.date()] is the floor division by one day;
    - the float columns are kept as rationals ([Q]); the threshold
      comparisons and the sums are the exact ones (rounding is not modelled);
    - columns are never null (the readings of the data model are complete). *)

From Stdlib Require Import ZArith QArith List Ascii String Bool Lia.
From Stdlib Require Import Sorting.Sorted Sorting.Permutation Lqa.
Import ListNotations.
Open Scope string_scope.

(** ** Data model *)

Record reading := mkReading {
  Date : Z;                 (** timestamp, seconds since the epoch *)
  Drive : string;
  TotalSizeGB : Q;
  UsedSpaceGB : Q;
  FreeSpaceGB : Q;
  FreeSpacePercent : Q
}.

Definition dataframe := list reading.

(** Python's [<] on the float columns. *)
Definition Qltb (x y : Q) : bool := negb (Qle_bool y x).

Definition seconds_per_day : Z := 86400.

(** [Timestamp.date()]: the calendar day of a timestamp. *)
Definition to_date (t : Z) : Z := Z.div t seconds_per_day.

(** ** Severity classifiers *)

Definition get_status_class (free_percent : Q) : string :=
  if Qltb free_percent 5 then "status-emergency"
  else if Qltb free_percent 10 then "status-critical"
  else if Qltb free_percent 20 then "status-warning"
  else "status-healthy".

Definition get_status_text (free_percent : Q) : string :=
  if Qltb free_percent 5 then "Emergency"
  else if Qltb free_percent 10 then "Critical"
  else if Qltb free_percent 20 then "Warning"
  else "Healthy".

Definition get_border_color (free_percent : Q) : string :=
  if Qltb free_percent 5 then "#ff6b6b"
  else if Qltb free_percent 10 then "#ff8787"
  else if Qltb free_percent 20 then "#ffd43b"
  else "#51cf66".

(** ** Date range *)

Definition list_min (d : Z) (l : list Z) : Z := fold_left Z.min l d.
Definition list_max (d : Z) (l : list Z) : Z := fold_left Z.max l d.

(** [get_date_range df]; [today] is [date.today()]. *)
Definition get_date_range (today : Z) (df : dataframe) : Z * Z :=
  match df with
  | [] => (today, today)
  | r :: rs =>
      (to_date (list_min (Date r) (map Date rs)),
       to_date (list_max (Date r) (map Date rs)))
  end.

(** ** Filters of [main] *)

(** [df[(df['Date'].dt.date >= start_date) & (df['Date'].dt.date <= end_date)]] *)
Definition date_filter (start_date end_date : Z) (df : dataframe) : dataframe :=
  filter (fun r => Z.leb start_date (to_date (Date r))
                   && Z.leb (to_date (Date r)) end_date) df.

(** [Series.isin(selected_drives)] *)
Definition isin (d : string) (sel : list string) : bool :=
  existsb (String.eqb d) sel.

(** [df[df['Drive'].isin(selected_drives)]] *)
Definition restrict (sel : list string) (df : dataframe) : dataframe :=
  filter (fun r => isin (Drive r) sel) df.

(** Python truthiness of [selected_drives] ([None] or a list). *)
Definition truthy (sel : option (list string)) : bool :=
  match sel with
  | Some (_ :: _) => true
  | _ => false
  end.

Definition sel_list (sel : option (list string)) : list string :=
  match sel with Some l => l | None => [] end.

(** The drive filter applied when the selection is truthy. *)
Definition drive_filter (sel : option (list string)) (df : dataframe) : dataframe :=
  if truthy sel then restrict (sel_list sel) df else df.

(** [filtered_df] of [main], for the multiselect value [selected_drives]. *)
Definition main_filter (start_date end_date : Z) (selected_drives : list string)
    (df : dataframe) : dataframe :=
  drive_filter (Some selected_drives) (date_filter start_date end_date df).

(** ** [get_latest_stats] *)

Fixpoint insert_str (s : string) (l : list string) : list string :=
  match l with
  | [] => [s]
  | x :: xs => if String.leb s x then s :: l else x :: insert_str s xs
  end.

Definition sort_str (l : list string) : list string := fold_right insert_str [] l.

(** The group keys of [groupby('Drive')]: the distinct drives, sorted
    ([sort=True] is pandas' default). *)
Definition group_keys (df : dataframe) : list string :=
  sort_str (nodup string_dec (map Drive df)).

(** [groupby('Drive').first().reset_index()]: per key, the first row of the
    group in the order of [df] (no column is null, so [first()] takes the
    first row as a whole). *)
Definition groupby_first (df : dataframe) : dataframe :=
  flat_map (fun k => match find (fun r => String.eqb (Drive r) k) df with
                     | Some r => [r]
                     | None => []
                     end) (group_keys df).

Definition sumQ (l : list Q) : Q := fold_right Qplus 0 l.

(** [Series.mean()]: the sum divided by the count. *)
Definition meanQ (l : list Q) : Q := sumQ l / inject_Z (Z.of_nat (List.length l)).

Record stats := mkStats {
  total_size : Q;
  total_used : Q;
  total_free : Q;
  avg_free_percent : Q;
  critical_drives : nat;
  latest_data : dataframe
}.

Section LatestStats.

(** [sort_values('Date', ascending=False)]: pandas' default quicksort does
    not fix the order of rows with equal dates, so the sort is any function
    returning a permutation sorted by decreasing date. *)
Variable sort_desc : dataframe -> dataframe.

Definition get_latest_stats (df : dataframe) (selected_drives : option (list string))
    : option stats :=
  match df with
  | [] => None
  | _ =>
      match drive_filter selected_drives df with
      | [] => None
      | df' =>
          let latest := groupby_first (sort_desc df') in
          Some {| total_size := sumQ (map TotalSizeGB latest);
                  total_used := sumQ (map UsedSpaceGB latest);
                  total_free := sumQ (map FreeSpaceGB latest);
                  avg_free_percent := meanQ (map FreeSpacePercent latest);
                  critical_drives :=
                    List.length (filter (fun r => Qltb (FreeSpacePercent r) 10) latest);
                  latest_data := latest |}
      end
  end.

End LatestStats.

(** ** A concrete sort: insertion sort on [Date] *)

Fixpoint insert_by (le : reading -> reading -> bool) (x : reading) (l : dataframe)
    : dataframe :=
  match l with
  | [] => [x]
  | y :: ys => if le x y then x :: l else y :: insert_by le x ys
  end.

Definition isort_by (le : reading -> reading -> bool) (l : dataframe) : dataframe :=
  fold_right (insert_by le) [] l.

Definition date_desc (a b : reading) : bool := Z.leb (Date b) (Date a).
Definition date_asc (a b : reading) : bool := Z.leb (Date a) (Date b).

Definition sort_desc_ins : dataframe -> dataframe := isort_by date_desc.
Definition sort_asc_ins : dataframe -> dataframe := isort_by date_asc.

(** ** Growth analysis (tab 3 of [main]) *)

Record growth_row := mkGrowth {
  gDrive : string;
  Initial : Q;
  Current : Q;
  Growth : Q;
  AvgDailyGrowth : Q
}.

(** [Timedelta.days]: whole days of a duration, rounded down. *)
Definition timedelta_days (secs : Z) : Z := Z.div secs seconds_per_day.

Section GrowthAnalysis.

(** [sort_values('Date')]: any sort returning a permutation sorted by
    increasing date (the order of equal dates is left to pandas). *)
Variable sort_asc : dataframe -> dataframe.

(** The body of the loop [for drive in selected_drives]. *)
Definition growth_of (filtered_df : dataframe) (drive : string) : option growth_row :=
  let drive_df := sort_asc (filter (fun r => String.eqb (Drive r) drive) filtered_df) in
  match drive_df with
  | [] => None
  | first_row :: _ =>
      if Nat.leb 2 (List.length drive_df) then
        let last_row := last drive_df first_row in
        let first_used := UsedSpaceGB first_row in
        let last_used := UsedSpaceGB last_row in
        let growth := last_used - first_used in
        let days := timedelta_days (Date last_row - Date first_row) in
        let avg_daily_growth := if Z.ltb 0 days then growth / inject_Z days else 0 in
        Some {| gDrive := drive; Initial := first_used; Current := last_used;
                Growth := growth; AvgDailyGrowth := avg_daily_growth |}
      else None
  end.

(** [growth_data] *)
Definition growth_data (selected_drives : list string) (filtered_df : dataframe)
    : list growth_row :=
  flat_map (fun d => match growth_of filtered_df d with
                     | Some g => [g]
                     | None => []
                     end) selected_drives.

End GrowthAnalysis.

(** ** Table search (tab 4 of [main]) *)

(** A row of the table seen through [row.astype(str)]: the string form of
    each column. *)
Definition str_row := list string.

(** [Series.str.contains(search_query, case=False, na=False)] keeps
    pandas' default [regex=True]: the query is a regular expression run by
    [re.search] with [re.IGNORECASE]. The model covers the fragment made of
    ordinary characters, [.], a postfix [*], a leading [^] and a trailing
    [$]; a query with any other metacharacter is outside the model. *)

Definition ascii_lower (c : Ascii.ascii) : Ascii.ascii :=
  let n := Ascii.nat_of_ascii c in
  if andb (Nat.leb 65 n) (Nat.leb n 90) then Ascii.ascii_of_nat (n + 32) else c.

Definition newline : Ascii.ascii := Ascii.ascii_of_nat 10.

(** One pattern character against one text character, ignoring case. *)
Definition char_match (p x : Ascii.ascii) : bool :=
  if Ascii.eqb p "."%char then negb (Ascii.eqb x newline)
  else Ascii.eqb (ascii_lower p) (ascii_lower x).

Fixpoint matchhere (re text : list Ascii.ascii) : bool :=
  match re with
  | [] => true
  | c :: rest =>
      match rest with
      | s :: rest' =>
          if Ascii.eqb s "*"%char then
            (fix star (t : list Ascii.ascii) : bool :=
               matchhere rest' t ||
               match t with
               | x :: t' => char_match c x && star t'
               | [] => false
               end) text
          else
            match text with
            | x :: t' => char_match c x && matchhere rest t'
            | [] => false
            end
      | [] =>
          if Ascii.eqb c "$"%char then
            match text with [] => true | _ => false end
          else
            match text with
            | x :: t' => char_match c x && matchhere rest t'
            | [] => false
            end
      end
  end.

(** [re.search]: an anchored match, or a match at some position. *)
Definition re_search (re text : list Ascii.ascii) : bool :=
  match re with
  | c :: rest =>
      if Ascii.eqb c "^"%char then matchhere rest text
      else (fix scan (t : list Ascii.ascii) : bool :=
              matchhere re t || match t with _ :: t' => scan t' | [] => false end) text
  | [] => true
  end.

Definition special_chars : list Ascii.ascii :=
  list_ascii_of_string "\[](){}+?|^$*".

Fixpoint fragment_body (re : list Ascii.ascii) (first : bool) : bool :=
  match re with
  | [] => true
  | c :: rest =>
      if Ascii.eqb c "*"%char then
        negb first && match rest with
                      | s :: _ => negb (Ascii.eqb s "*"%char)
                      | [] => true
                      end && fragment_body rest false
      else if Ascii.eqb c "$"%char then
        match rest with [] => true | _ => false end
      else negb (existsb (Ascii.eqb c) special_chars) && fragment_body rest false
  end.

(** The queries the model covers. *)
Definition in_fragment (re : list Ascii.ascii) : bool :=
  match re with
  | c :: rest => if Ascii.eqb c "^"%char then fragment_body rest true else fragment_body re true
  | [] => true
  end.

(** [row.astype(str).str.contains(search_query, case=False, na=False).any()];
    [None] for a query outside the modelled fragment. *)
Definition row_mask (search_query : string) (row : str_row) : option bool :=
  let re := list_ascii_of_string search_query in
  if in_fragment re
  then Some (existsb (fun s => re_search re (list_ascii_of_string s)) row)
  else None.

(** The search as the spec words it: a case-insensitive substring test on
    the string form of each column, ORed across the columns. *)
Fixpoint prefixb (p t : list Ascii.ascii) : bool :=
  match p, t with
  | [], _ => true
  | c :: p', x :: t' => Ascii.eqb c x && prefixb p' t'
  | _ :: _, [] => false
  end.

Fixpoint substrb (p t : list Ascii.ascii) : bool :=
  prefixb p t || match t with _ :: t' => substrb p t' | [] => false end.

Definition spec_row_match (search_query : string) (row : str_row) : bool :=
  let q := map ascii_lower (list_ascii_of_string search_query) in
  existsb (fun s => substrb q (map ascii_lower (list_ascii_of_string s))) row.

(** ** The page ([main]) *)

(** [Series.unique()]: the distinct values in order of first appearance. *)
Fixpoint unique_aux (seen : list string) (l : list string) : list string :=
  match l with
  | [] => []
  | x :: xs =>
      if existsb (String.eqb x) seen then unique_aux seen xs
      else x :: unique_aux (x :: seen) xs
  end.

Definition unique (l : list string) : list string := unique_aux [] l.

(** [all_drives = sorted(df['Drive'].unique().tolist())], the options and
    the default value of the drive multiselect. *)
Definition all_drives (df : dataframe) : list string := sort_str (unique (map Drive df)).

(** Tab 1: one trace per drive of [filtered_df['Drive'].unique()], holding
    [filtered_df[filtered_df['Drive'] == drive].sort_values('Date')]. *)
Definition trend_traces (sort_asc : dataframe -> dataframe) (filtered_df : dataframe)
    : list (string * dataframe) :=
  map (fun drive => (drive, sort_asc (filter (fun r => String.eqb (Drive r) drive) filtered_df)))
      (unique (map Drive filtered_df)).

(** What [main] renders: the warning for an empty dataset, the warning for
    empty filters, the statistics error, or the report (its filtered rows,
    statistics and growth rows). *)
Inductive page :=
  | NoData
  | NoFilteredData
  | StatsError
  | Report (filtered_df : dataframe) (st : stats) (growth : list growth_row).

(** [main], for the widget values [start_date], [end_date] and
    [selected_drives] (their defaults are [get_date_range df] and
    [all_drives df]). *)
Definition main_page (sort_desc sort_asc : dataframe -> dataframe) (df : dataframe)
    (start_date end_date : Z) (selected_drives : list string) : page :=
  match df with
  | [] => NoData
  | _ =>
      let filtered_df := main_filter start_date end_date selected_drives df in
      match filtered_df with
      | [] => NoFilteredData
      | _ =>
          match get_latest_stats sort_desc filtered_df (Some selected_drives) with
          | None => StatsError
          | Some st => Report filtered_df st (growth_data sort_asc selected_drives filtered_df)
          end
      end
  end.



(** ** Sample inputs *)

(** Sample readings: two of drive C on consecutive days, one of drive D. *)
Definition ex_readings : dataframe :=
  [mkReading 86400 "C" 100 40 60 60;
   mkReading 172800 "C" 100 50 50 50;
   mkReading 90000 "D" 10 9.5 0.5 5].

(** The table row of the first sample reading, as [astype(str)] prints it. *)
Definition ex_row : str_row :=
  ["1970-01-02 00:00:00"; "C"; "100.0"; "40.0"; "60.0"; "60.0"].

(** * Properties *)

(** ** Helper lemmas *)

Lemma Qltb_spec (x y : Q) : Qltb x y = true <-> x < y.
Proof.
  unfold Qltb. rewrite negb_true_iff. split; intro H.
  - apply Qnot_le_lt. intro H'. apply Qle_bool_iff in H'. congruence.
  - destruct (Qle_bool y x) eqn:E; [|reflexivity].
    apply Qle_bool_iff in E. exfalso. exact (Qlt_not_le _ _ H E).
Qed.

Lemma Qltb_false (x y : Q) : Qltb x y = false <-> y <= x.
Proof.
  split; intro H.
  - apply Qnot_lt_le. intro H'. apply Qltb_spec in H'. congruence.
  - destruct (Qltb x y) eqn:E; [|reflexivity].
    apply Qltb_spec in E. exfalso. exact (Qlt_not_le _ _ E H).
Qed.

(** Rewrites every threshold test of a classifier into a comparison. *)
Ltac split_thresholds p :=
  destruct (Qltb p 5) eqn:H5;
  [ apply Qltb_spec in H5
  | apply Qltb_false in H5;
    destruct (Qltb p 10) eqn:H10;
    [ apply Qltb_spec in H10
    | apply Qltb_false in H10;
      destruct (Qltb p 20) eqn:H20;
      [ apply Qltb_spec in H20 | apply Qltb_false in H20 ] ] ].

Lemma to_date_mono (a b : Z) : (a <= b)%Z -> (to_date a <= to_date b)%Z.
Proof.
  intro H. unfold to_date, seconds_per_day. apply Z.div_le_mono; lia.
Qed.

Lemma fold_min_spec (l : list Z) (d : Z) :
  In (fold_left Z.min l d) (d :: l) /\
  forall x, In x (d :: l) -> (fold_left Z.min l d <= x)%Z.
Proof.
  revert d. induction l as [|y l IH]; intro d; simpl.
  - split; [now left|]. intros x [<-|[]]. lia.
  - destruct (IH (Z.min d y)) as [Hin Hle]. split.
    + destruct Hin as [Hm|Hin]; [|now right; right].
      rewrite <- Hm. destruct (Z.min_spec d y) as [[_ ->]|[_ ->]]; auto.
    + intros x [<-|[<-|Hx]].
      * specialize (Hle _ (or_introl eq_refl)). lia.
      * specialize (Hle _ (or_introl eq_refl)). lia.
      * apply Hle. now right.
Qed.

Lemma fold_max_spec (l : list Z) (d : Z) :
  In (fold_left Z.max l d) (d :: l) /\
  forall x, In x (d :: l) -> (x <= fold_left Z.max l d)%Z.
Proof.
  revert d. induction l as [|y l IH]; intro d; simpl.
  - split; [now left|]. intros x [<-|[]]. lia.
  - destruct (IH (Z.max d y)) as [Hin Hle]. split.
    + destruct Hin as [Hm|Hin]; [|now right; right].
      rewrite <- Hm. destruct (Z.max_spec d y) as [[_ ->]|[_ ->]]; auto.
    + intros x [<-|[<-|Hx]].
      * specialize (Hle _ (or_introl eq_refl)). lia.
      * specialize (Hle _ (or_introl eq_refl)). lia.
      * apply Hle. now right.
Qed.

(** ** Severity bands *)

(** C1 (as the code has it): the bands are half-open intervals; every value
    falls in exactly one band, and a boundary value 5, 10 or 20 belongs to
    the band above it (the less severe one): 10 is Warning. *)
Theorem status_bands_half_open (p : Q) :
  (get_status_text p = "Emergency" <-> p < 5) /\
  (get_status_text p = "Critical" <-> 5 <= p /\ p < 10) /\
  (get_status_text p = "Warning" <-> 10 <= p /\ p < 20) /\
  (get_status_text p = "Healthy" <-> 20 <= p) /\
  (get_status_class p = "status-emergency" <-> p < 5) /\
  (get_status_class p = "status-critical" <-> 5 <= p /\ p < 10) /\
  (get_status_class p = "status-warning" <-> 10 <= p /\ p < 20) /\
  (get_status_class p = "status-healthy" <-> 20 <= p) /\
  get_status_text 5 = "Critical" /\ get_status_text 10 = "Warning" /\
  get_status_text 20 = "Healthy".
Proof.
  unfold get_status_text, get_status_class.
  split_thresholds p;
    repeat split; intros; try discriminate; try reflexivity; try lra.
Qed.

(** C1 counterexample: for exactly 10 the classifier answers Warning, not
    Critical. *)
Lemma status_text_10_is_warning :
  get_status_text 10 = "Warning" /\ get_status_text 10 <> "Critical" /\
  get_status_class 10 = "status-warning".
Proof. vm_compute. split; [reflexivity|split; [discriminate|reflexivity]]. Qed.

(** C10: the class, the label and the border color of a percentage always
    belong to one and the same band. *)
Theorem status_functions_agree (p : Q) :
  (get_status_class p, get_status_text p, get_border_color p) =
    ("status-emergency", "Emergency", "#ff6b6b") \/
  (get_status_class p, get_status_text p, get_border_color p) =
    ("status-critical", "Critical", "#ff8787") \/
  (get_status_class p, get_status_text p, get_border_color p) =
    ("status-warning", "Warning", "#ffd43b") \/
  (get_status_class p, get_status_text p, get_border_color p) =
    ("status-healthy", "Healthy", "#51cf66").
Proof.
  unfold get_status_class, get_status_text, get_border_color.
  destruct (Qltb p 5); [now left|].
  destruct (Qltb p 10); [now right; left|].
  destruct (Qltb p 20); [now right; right; left|now right; right; right].
Qed.

(** ** Date filter and date range *)

(** C4: the date filter keeps a row iff its calendar day lies between the
    two bounds, both included. *)
Theorem date_filter_inclusive (start_date end_date : Z) (df : dataframe) (r : reading) :
  In r (date_filter start_date end_date df) <->
  In r df /\ (start_date <= to_date (Date r))%Z /\ (to_date (Date r) <= end_date)%Z.
Proof.
  unfold date_filter. rewrite filter_In, andb_true_iff, !Z.leb_le. tauto.
Qed.

(** C9: [get_date_range] gives [(today, today)] on an empty dataframe, and
    otherwise the days of the earliest and the latest reading; the first
    component never exceeds the second. *)
Theorem get_date_range_spec (today : Z) (df : dataframe) :
  (df = [] -> get_date_range today df = (today, today)) /\
  (df <> [] -> exists rmin rmax, In rmin df /\ In rmax df /\
     (forall r, In r df -> (Date rmin <= Date r <= Date rmax)%Z) /\
     get_date_range today df = (to_date (Date rmin), to_date (Date rmax))) /\
  (fst (get_date_range today df) <= snd (get_date_range today df))%Z.
Proof.
  destruct df as [|r0 rs].
  - simpl. repeat split; [congruence|lia].
  - destruct (fold_min_spec (map Date rs) (Date r0)) as [Hmin Hmin'].
    destruct (fold_max_spec (map Date rs) (Date r0)) as [Hmax Hmax'].
    change (Date r0 :: map Date rs) with (map Date (r0 :: rs)) in *.
    apply in_map_iff in Hmin as [rmin [Emin Inmin]].
    apply in_map_iff in Hmax as [rmax [Emax Inmax]].
    split; [discriminate|]. split.
    + intros _. exists rmin, rmax. split; [exact Inmin|]. split; [exact Inmax|].
      split.
      * intros x Hx. rewrite Emin, Emax.
        split; [apply Hmin'|apply Hmax']; now apply in_map.
      * simpl. unfold list_min, list_max. simpl in Emin, Emax.
        now rewrite Emin, Emax.
    + simpl. unfold list_min, list_max. apply to_date_mono.
      specialize (Hmin' _ (or_introl eq_refl)).
      specialize (Hmax' _ (or_introl eq_refl)). lia.
Qed.

(** ** Latest statistics *)

Lemma insert_str_perm (s : string) (l : list string) :
  Permutation (insert_str s l) (s :: l).
Proof.
  induction l as [|x l IH]; simpl; [reflexivity|].
  destruct (String.leb s x); [reflexivity|].
  rewrite IH. apply perm_swap.
Qed.

Lemma sort_str_perm (l : list string) : Permutation (sort_str l) l.
Proof.
  induction l as [|x l IH]; simpl; [reflexivity|].
  rewrite insert_str_perm. now apply perm_skip.
Qed.

Lemma group_keys_NoDup (df : dataframe) : NoDup (group_keys df).
Proof.
  unfold group_keys. eapply Permutation_NoDup.
  - symmetry. apply sort_str_perm.
  - apply NoDup_nodup.
Qed.

Lemma group_keys_In (df : dataframe) (d : string) :
  In d (group_keys df) <-> In d (map Drive df).
Proof.
  unfold group_keys. rewrite <- (nodup_In string_dec (map Drive df)). split; intro H.
  - eapply Permutation_in; [apply sort_str_perm|exact H].
  - eapply Permutation_in; [symmetry; apply sort_str_perm|exact H].
Qed.

Lemma find_drive_some (df : dataframe) (k : string) :
  In k (map Drive df) ->
  exists r, find (fun r => String.eqb (Drive r) k) df = Some r /\ In r df /\ Drive r = k.
Proof.
  intro Hk. destruct (find (fun r => String.eqb (Drive r) k) df) as [r|] eqn:E.
  - apply find_some in E as [Hin Heq]. apply String.eqb_eq in Heq. eauto.
  - apply in_map_iff in Hk as [r [Hr Hin]].
    pose proof (find_none _ _ E r Hin) as F. simpl in F.
    apply String.eqb_neq in F. congruence.
Qed.

Lemma groupby_first_keys (df : dataframe) (keys : list string) :
  (forall k, In k keys -> In k (map Drive df)) ->
  map Drive (flat_map (fun k => match find (fun r => String.eqb (Drive r) k) df with
                                | Some r => [r]
                                | None => []
                                end) keys) = keys.
Proof.
  induction keys as [|k keys IH]; intro Hk; simpl; [reflexivity|].
  destruct (find_drive_some df k (Hk k (or_introl eq_refl))) as [r [-> [_ Hd]]].
  simpl. rewrite Hd, IH; [reflexivity|]. intros k' H'. apply Hk. now right.
Qed.

Lemma groupby_first_drives (df : dataframe) :
  map Drive (groupby_first df) = group_keys df.
Proof.
  apply groupby_first_keys. intros k Hk. now apply group_keys_In.
Qed.

Lemma groupby_first_In (df : dataframe) (r : reading) :
  In r (groupby_first df) ->
  In r df /\ find (fun x => String.eqb (Drive x) (Drive r)) df = Some r.
Proof.
  unfold groupby_first. intro H. apply in_flat_map in H as [k [_ Hr]].
  destruct (find (fun x => String.eqb (Drive x) k) df) as [r0|] eqn:E; [|destruct Hr].
  destruct Hr as [<-|[]].
  pose proof E as E'. apply find_some in E' as [Hin Heq].
  apply String.eqb_eq in Heq. rewrite Heq. auto.
Qed.

(** In a list sorted by decreasing date, the first row of a drive is one of
    its latest rows. *)
Lemma find_first_latest (l : dataframe) (r : reading) :
  StronglySorted (fun a b => (Date b <= Date a)%Z) l ->
  find (fun x => String.eqb (Drive x) (Drive r)) l = Some r ->
  forall r', In r' l -> Drive r' = Drive r -> (Date r' <= Date r)%Z.
Proof.
  induction l as [|a l IH]; intros Hs Hf r' Hin Hd; [discriminate|].
  apply StronglySorted_inv in Hs as [Hs Hall]. simpl in Hf.
  destruct (String.eqb (Drive a) (Drive r)) eqn:E.
  - injection Hf as <-. destruct Hin as [<-|Hin]; [lia|].
    rewrite Forall_forall in Hall. now apply Hall.
  - destruct Hin as [<-|Hin].
    + apply String.eqb_neq in E. contradiction.
    + eapply IH; eauto.
Qed.

Lemma drive_filter_nil (sel : option (list string)) : drive_filter sel [] = [].
Proof. unfold drive_filter. now destruct (truthy sel). Qed.

Lemma get_latest_stats_unfold (sort_desc : dataframe -> dataframe)
    (df : dataframe) (sel : option (list string)) :
  drive_filter sel df <> [] ->
  get_latest_stats sort_desc df sel =
    let latest := groupby_first (sort_desc (drive_filter sel df)) in
    Some {| total_size := sumQ (map TotalSizeGB latest);
            total_used := sumQ (map UsedSpaceGB latest);
            total_free := sumQ (map FreeSpaceGB latest);
            avg_free_percent := meanQ (map FreeSpacePercent latest);
            critical_drives :=
              List.length (filter (fun r => Qltb (FreeSpacePercent r) 10) latest);
            latest_data := latest |}.
Proof.
  intro Hne. unfold get_latest_stats.
  destruct df as [|r0 rs]; [now rewrite drive_filter_nil in Hne|].
  destruct (drive_filter sel (r0 :: rs)); [contradiction|reflexivity].
Qed.

(** ** The insertion sort is a valid [sort_values] *)

Section InsertionSort.

Variable le : reading -> reading -> bool.
Variable R : reading -> reading -> Prop.
Hypothesis le_true : forall a b, le a b = true -> R a b.
Hypothesis le_false : forall a b, le a b = false -> R b a.

Lemma insert_by_perm (x : reading) (l : dataframe) :
  Permutation (insert_by le x l) (x :: l).
Proof.
  induction l as [|y l IH]; simpl; [reflexivity|].
  destruct (le x y); [reflexivity|].
  rewrite IH. apply perm_swap.
Qed.

Lemma isort_by_perm (l : dataframe) : Permutation l (isort_by le l).
Proof.
  induction l as [|x l IH]; simpl; [reflexivity|].
  rewrite insert_by_perm. now apply perm_skip.
Qed.

Lemma insert_by_HdRel (y x : reading) (l : dataframe) :
  HdRel R y l -> R y x -> HdRel R y (insert_by le x l).
Proof.
  intros Hd Hyx. destruct l as [|z l]; simpl; [now constructor|].
  destruct (le x z); constructor; [exact Hyx|]. now apply HdRel_inv in Hd.
Qed.

Lemma insert_by_sorted (x : reading) (l : dataframe) :
  Sorted R l -> Sorted R (insert_by le x l).
Proof.
  induction l as [|y l IH]; intro Hs; simpl; [now repeat constructor|].
  destruct (le x y) eqn:E.
  - constructor; [exact Hs|]. constructor. now apply le_true.
  - apply Sorted_inv in Hs as [Hs Hd]. constructor; [now apply IH|].
    apply insert_by_HdRel; [exact Hd|]. now apply le_false.
Qed.

Lemma isort_by_sorted (l : dataframe) : Sorted R (isort_by le l).
Proof.
  induction l as [|x l IH]; simpl; [constructor|]. now apply insert_by_sorted.
Qed.

End InsertionSort.

Lemma sort_desc_ins_perm (l : dataframe) : Permutation l (sort_desc_ins l).
Proof. apply isort_by_perm. Qed.

Lemma sort_desc_ins_sorted (l : dataframe) :
  Sorted (fun a b => (Date b <= Date a)%Z) (sort_desc_ins l).
Proof.
  apply isort_by_sorted; unfold date_desc; intros a b H.
  - now apply Z.leb_le.
  - apply Z.leb_gt in H. lia.
Qed.

Lemma sort_asc_ins_perm (l : dataframe) : Permutation l (sort_asc_ins l).
Proof. apply isort_by_perm. Qed.

Lemma sort_asc_ins_sorted (l : dataframe) :
  Sorted (fun a b => (Date a <= Date b)%Z) (sort_asc_ins l).
Proof.
  apply isort_by_sorted; unfold date_asc; intros a b H.
  - now apply Z.leb_le.
  - apply Z.leb_gt in H. lia.
Qed.

Section LatestProps.

Variable sort_desc : dataframe -> dataframe.
Hypothesis sort_desc_perm : forall l, Permutation l (sort_desc l).
Hypothesis sort_desc_sorted :
  forall l, Sorted (fun a b => (Date b <= Date a)%Z) (sort_desc l).

(** C2: when some reading survives the drive selection, [get_latest_stats]
    returns a result whose [latest_data] holds exactly one row per drive of
    the (drive-filtered) input, and that row is a reading of the input with
    the latest date of its drive. *)
Theorem get_latest_stats_latest_per_drive (df : dataframe) (sel : option (list string)) :
  drive_filter sel df <> [] ->
  exists st, get_latest_stats sort_desc df sel = Some st /\
    NoDup (map Drive (latest_data st)) /\
    (forall d, In d (map Drive (latest_data st)) <-> In d (map Drive (drive_filter sel df))) /\
    (forall r, In r (latest_data st) ->
       In r (drive_filter sel df) /\
       forall r', In r' (drive_filter sel df) -> Drive r' = Drive r ->
                  (Date r' <= Date r)%Z).
Proof.
  intro Hne. eexists. split; [apply get_latest_stats_unfold; exact Hne|].
  cbn zeta. cbn [latest_data].
  set (df' := drive_filter sel df). set (s := sort_desc df').
  rewrite groupby_first_drives. split; [apply group_keys_NoDup|]. split.
  - intro d. rewrite group_keys_In. split; intro H.
    + eapply Permutation_in; [|exact H].
      apply Permutation_map. symmetry. apply sort_desc_perm.
    + eapply Permutation_in; [|exact H].
      apply Permutation_map. apply sort_desc_perm.
  - intros r Hr. apply groupby_first_In in Hr as [Hin Hfind]. split.
    + eapply Permutation_in; [symmetry; apply sort_desc_perm|exact Hin].
    + intros r' Hr' Hd. eapply find_first_latest; [| exact Hfind | | exact Hd].
      * apply Sorted_StronglySorted; [intros a b c H1 H2; lia|apply sort_desc_sorted].
      * eapply Permutation_in; [apply sort_desc_perm|exact Hr'].
Qed.

(** C3: on an input that survives the drive selection, the totals are the
    sums of the capacity columns over the per-drive latest rows, the average
    is their mean free percentage and the critical count is the number of
    those rows strictly below 10 percent free. *)
Theorem get_latest_stats_aggregates (df : dataframe) (sel : option (list string)) :
  drive_filter sel df <> [] ->
  exists st, get_latest_stats sort_desc df sel = Some st /\
    latest_data st = groupby_first (sort_desc (drive_filter sel df)) /\
    total_size st = sumQ (map TotalSizeGB (latest_data st)) /\
    total_used st = sumQ (map UsedSpaceGB (latest_data st)) /\
    total_free st = sumQ (map FreeSpaceGB (latest_data st)) /\
    avg_free_percent st =
      sumQ (map FreeSpacePercent (latest_data st))
        / inject_Z (Z.of_nat (List.length (latest_data st))) /\
    critical_drives st =
      List.length (filter (fun r => Qltb (FreeSpacePercent r) 10) (latest_data st)) /\
    (forall r, Qltb (FreeSpacePercent r) 10 = true <-> FreeSpacePercent r < 10).
Proof.
  intro Hne. eexists. split; [apply get_latest_stats_unfold; exact Hne|].
  cbn. unfold meanQ. rewrite length_map.
  repeat split; try reflexivity; intro H; now apply Qltb_spec.
Qed.

(** C8 (as the code has it): [get_latest_stats] returns [None] exactly when
    the input is empty, or when the selection is a non-empty list and no
    reading is of a selected drive; an absent or empty selection filters
    nothing. *)
Theorem get_latest_stats_none_iff (df : dataframe) (sel : option (list string)) :
  get_latest_stats sort_desc df sel = None <->
  df = [] \/ (truthy sel = true /\ restrict (sel_list sel) df = []).
Proof.
  unfold get_latest_stats, drive_filter.
  destruct df as [|r0 rs]; [split; [now left|reflexivity]|].
  destruct (truthy sel) eqn:T.
  - destruct (restrict (sel_list sel) (r0 :: rs)) eqn:E.
    + split; [intros _; now right|reflexivity].
    + split; [discriminate|intros [H|[_ H]]; discriminate].
  - split; [discriminate|intros [H|[H _]]; discriminate].
Qed.

End LatestProps.

(** C8 counterexample: with the empty selection [[]] no reading is of a
    selected drive, yet the statistics are computed over all readings. *)
Lemma get_latest_stats_empty_selection :
  restrict [] ex_readings = [] /\
  get_latest_stats sort_desc_ins ex_readings (Some []) <> None.
Proof. split; [reflexivity|discriminate]. Qed.

(** Witness for C2, on the sample readings restricted to drive C. *)
Lemma get_latest_stats_latest_per_drive_witness :
  drive_filter (Some ["C"]) ex_readings <> [] /\
  exists st, get_latest_stats sort_desc_ins ex_readings (Some ["C"]) = Some st /\
    NoDup (map Drive (latest_data st)).
Proof.
  split; [discriminate|].
  destruct (get_latest_stats_latest_per_drive sort_desc_ins sort_desc_ins_perm
              sort_desc_ins_sorted ex_readings (Some ["C"]) ltac:(discriminate))
    as [st [Hst [Hnd _]]].
  exists st. split; [exact Hst|exact Hnd].
Defined.

(** Witness for C3, on the sample readings with no selection. *)
Lemma get_latest_stats_aggregates_witness :
  drive_filter None ex_readings <> [] /\
  exists st, get_latest_stats sort_desc_ins ex_readings None = Some st /\
    total_size st = sumQ (map TotalSizeGB (latest_data st)).
Proof.
  split; [discriminate|].
  destruct (get_latest_stats_aggregates sort_desc_ins ex_readings None ltac:(discriminate))
    as [st [Hst [_ [Hts _]]]].
  exists st. split; [exact Hst|exact Hts].
Defined.

(** ** Growth analysis *)

Lemma growth_of_drive (sort_asc : dataframe -> dataframe) (f : dataframe) (d : string)
    (g : growth_row) :
  growth_of sort_asc f d = Some g -> gDrive g = d.
Proof.
  unfold growth_of. cbv zeta.
  destruct (sort_asc (filter (fun r => String.eqb (Drive r) d) f)) as [|r0 rs]; [discriminate|].
  destruct (Nat.leb 2 (List.length (r0 :: rs))); [|discriminate].
  intro H. now injection H as <-.
Qed.

Lemma growth_data_In (sort_asc : dataframe -> dataframe) (sel : list string)
    (f : dataframe) (g : growth_row) :
  In g (growth_data sort_asc sel f) <-> exists d, In d sel /\ growth_of sort_asc f d = Some g.
Proof.
  unfold growth_data. rewrite in_flat_map. split.
  - intros [d [Hd Hg]]. exists d. split; [exact Hd|].
    destruct (growth_of sort_asc f d) as [g'|]; [|destruct Hg].
    destruct Hg as [<-|[]]. reflexivity.
  - intros [d [Hd Hg]]. exists d. split; [exact Hd|]. rewrite Hg. now left.
Qed.

Lemma last_In_cons (l : dataframe) (a d : reading) : In (last (a :: l) d) (a :: l).
Proof.
  revert a. induction l as [|b l IH]; intro a; [now left|].
  change (last (a :: b :: l) d) with (last (b :: l) d). right. apply IH.
Qed.

Lemma last_default (l : dataframe) (a d d' : reading) : last (a :: l) d = last (a :: l) d'.
Proof.
  revert a. induction l as [|b l IH]; intro a; [reflexivity|].
  change (last (b :: l) d = last (b :: l) d'). apply IH.
Qed.

(** In a list sorted by increasing date, the head is an earliest and the last
    element a latest row. *)
Lemma sorted_asc_bounds (l : dataframe) (a : reading) :
  StronglySorted (fun x y => (Date x <= Date y)%Z) (a :: l) ->
  forall x, In x (a :: l) -> (Date a <= Date x <= Date (last (a :: l) a))%Z.
Proof.
  revert a. induction l as [|b l IH]; intros a Hs x Hx.
  - destruct Hx as [<-|[]]. simpl. lia.
  - apply StronglySorted_inv in Hs as [Hs Hall]. rewrite Forall_forall in Hall.
    change (last (a :: b :: l) a) with (last (b :: l) a).
    rewrite (last_default l b a b).
    assert (Hab : (Date a <= Date b)%Z) by (apply Hall; now left).
    destruct Hx as [<-|Hx].
    + split; [lia|]. apply Hall. apply last_In_cons.
    + specialize (IH b Hs x Hx). split; lia.
Qed.

Section GrowthProps.

Variable sort_asc : dataframe -> dataframe.
Hypothesis sort_asc_perm : forall l, Permutation l (sort_asc l).
Hypothesis sort_asc_sorted :
  forall l, Sorted (fun a b => (Date a <= Date b)%Z) (sort_asc l).

Lemma growth_of_some (f : dataframe) (d : string) :
  (2 <= List.length (filter (fun r => String.eqb (Drive r) d) f))%nat ->
  exists first_row rest,
    sort_asc (filter (fun r => String.eqb (Drive r) d) f) = first_row :: rest /\
    let last_row := last (first_row :: rest) first_row in
    let days := timedelta_days (Date last_row - Date first_row) in
    growth_of sort_asc f d =
      Some {| gDrive := d; Initial := UsedSpaceGB first_row;
              Current := UsedSpaceGB last_row;
              Growth := UsedSpaceGB last_row - UsedSpaceGB first_row;
              AvgDailyGrowth :=
                if Z.ltb 0 days
                then (UsedSpaceGB last_row - UsedSpaceGB first_row) / inject_Z days
                else 0 |}.
Proof.
  intro H2. unfold growth_of.
  set (l := filter (fun r => String.eqb (Drive r) d) f) in *.
  pose proof (Permutation_length (sort_asc_perm l)) as Hlen.
  destruct (sort_asc l) as [|r0 rs] eqn:E; [simpl in Hlen; lia|].
  exists r0, rs. split; [reflexivity|]. cbv zeta.
  rewrite <- Hlen. apply Nat.leb_le in H2. now rewrite H2.
Qed.

Lemma growth_of_none (f : dataframe) (d : string) :
  (List.length (filter (fun r => String.eqb (Drive r) d) f) < 2)%nat ->
  growth_of sort_asc f d = None.
Proof.
  intro H1. unfold growth_of.
  set (l := filter (fun r => String.eqb (Drive r) d) f) in *.
  pose proof (Permutation_length (sort_asc_perm l)) as Hlen.
  destruct (sort_asc l) as [|r0 rs]; [reflexivity|]. cbv zeta.
  rewrite <- Hlen. destruct (Nat.leb 2 (List.length l)) eqn:E; [|reflexivity].
  apply Nat.leb_le in E. lia.
Qed.

(** The rows of a drive, once sorted, are bounded by the head and the last. *)
Lemma drive_rows_bounds (f : dataframe) (d : string) (first_row : reading) rest :
  sort_asc (filter (fun r => String.eqb (Drive r) d) f) = first_row :: rest ->
  forall r, In r f -> Drive r = d ->
  (Date first_row <= Date r <= Date (last (first_row :: rest) first_row))%Z.
Proof.
  intros E r Hr Hd. apply sorted_asc_bounds.
  - rewrite <- E. apply Sorted_StronglySorted; [intros a b c H1 H2; lia|apply sort_asc_sorted].
  - rewrite <- E. eapply Permutation_in; [apply sort_asc_perm|].
    apply filter_In. split; [exact Hr|]. now apply String.eqb_eq.
Qed.

(** C5: for a selected drive with at least two readings in the filtered
    window, the growth analysis has a row for it whose growth is the used
    space of the last reading minus that of the first, in date order (the
    first is an earliest and the last a latest reading of the drive); a
    drive with a single reading in the window gets no row. *)
Theorem growth_last_minus_first (start_date end_date : Z) (sel : list string)
    (df : dataframe) (d : string) :
  let filtered := main_filter start_date end_date sel df in
  let drive_df := sort_asc (filter (fun r => String.eqb (Drive r) d) filtered) in
  (In d sel ->
   (2 <= List.length (filter (fun r => String.eqb (Drive r) d) filtered))%nat ->
   exists g first_row rest,
     In g (growth_data sort_asc sel filtered) /\ gDrive g = d /\
     drive_df = first_row :: rest /\
     Initial g = UsedSpaceGB first_row /\
     Current g = UsedSpaceGB (last drive_df first_row) /\
     Growth g = UsedSpaceGB (last drive_df first_row) - UsedSpaceGB first_row /\
     (forall r, In r filtered -> Drive r = d ->
        (Date first_row <= Date r <= Date (last drive_df first_row))%Z)) /\
  (List.length (filter (fun r => String.eqb (Drive r) d) filtered) = 1%nat ->
   forall g, In g (growth_data sort_asc sel filtered) -> gDrive g <> d).
Proof.
  cbv zeta. set (filtered := main_filter start_date end_date sel df). split.
  - intros Hd H2.
    destruct (growth_of_some filtered d H2) as [first_row [rest [E Hg]]].
    eexists. exists first_row, rest. rewrite E.
    split; [apply growth_data_In; exists d; split; [exact Hd|exact Hg]|].
    repeat split; try reflexivity; eapply drive_rows_bounds; eauto.
  - intros H1 g Hg Hgd. apply growth_data_In in Hg as [d' [_ Hg]].
    pose proof (growth_of_drive _ _ _ _ Hg) as Hdd. rewrite Hgd in Hdd. subst d'.
    rewrite growth_of_none in Hg; [discriminate|lia].
Qed.

(** C6: for such a drive the average daily growth is the growth divided by
    the whole days elapsed between the first and the last reading when that
    number is positive, and zero when it is zero; it is never negative, so no
    division by zero takes place. *)
Theorem growth_avg_daily (start_date end_date : Z) (sel : list string)
    (df : dataframe) (d : string)
    (Hd : In d sel)
    (H2 : (2 <= List.length (filter (fun r => String.eqb (Drive r) d)
                               (main_filter start_date end_date sel df)))%nat) :
  let filtered := main_filter start_date end_date sel df in
  let drive_df := sort_asc (filter (fun r => String.eqb (Drive r) d) filtered) in
  exists g first_row rest,
    In g (growth_data sort_asc sel filtered) /\ gDrive g = d /\
    drive_df = first_row :: rest /\
    Growth g = UsedSpaceGB (last drive_df first_row) - UsedSpaceGB first_row /\
    let days := timedelta_days (Date (last drive_df first_row) - Date first_row) in
    (0 <= days)%Z /\
    (days = 0%Z -> AvgDailyGrowth g = 0) /\
    (days <> 0%Z -> (0 < days)%Z /\ AvgDailyGrowth g = Growth g / inject_Z days).
Proof.
  cbv zeta. set (filtered := main_filter start_date end_date sel df) in *.
  destruct (growth_of_some filtered d H2) as [first_row [rest [E Hg]]].
  eexists. exists first_row, rest. rewrite E.
  split; [apply growth_data_In; exists d; split; [exact Hd|exact Hg]|].
  cbn [gDrive Growth AvgDailyGrowth].
  assert (Hle : (Date first_row <= Date (last (first_row :: rest) first_row))%Z).
  { pose proof (last_In_cons rest first_row first_row) as Hin. rewrite <- E in Hin.
    apply (Permutation_in _ (Permutation_sym (sort_asc_perm _))) in Hin.
    apply filter_In in Hin as [Hin Hdr]. apply String.eqb_eq in Hdr.
    rewrite E in Hin, Hdr. exact (proj1 (drive_rows_bounds _ _ _ _ E _ Hin Hdr)). }
  set (days := timedelta_days (Date (last (first_row :: rest) first_row) - Date first_row)).
  assert (Hdays : (0 <= days)%Z).
  { unfold days, timedelta_days, seconds_per_day. apply Z.div_pos; lia. }
  repeat (split; [reflexivity|]). split; [exact Hdays|]. split.
  - intro H0. assert (Hn : Z.ltb 0 days = false) by (apply Z.ltb_ge; lia).
    rewrite Hn. reflexivity.
  - intro H0. assert (Hp : (0 < days)%Z) by lia. split; [exact Hp|].
    apply Z.ltb_lt in Hp. rewrite Hp. reflexivity.
Qed.

End GrowthProps.

(** Witness for C5, on drive C of the sample readings. *)
Lemma growth_last_minus_first_witness :
  In "C" ["C"; "D"] /\
  (2 <= List.length (filter (fun r => String.eqb (Drive r) "C")
                       (main_filter 0 10 ["C"; "D"] ex_readings)))%nat /\
  exists g, In g (growth_data sort_asc_ins ["C"; "D"] (main_filter 0 10 ["C"; "D"] ex_readings))
            /\ gDrive g = "C" /\ Growth g = 10%Q.
Proof.
  assert (Hd : In "C" ["C"; "D"]) by (now left).
  assert (H2 : (2 <= List.length (filter (fun r => String.eqb (Drive r) "C")
                                   (main_filter 0 10 ["C"; "D"] ex_readings)))%nat)
    by (vm_compute; lia).
  split; [exact Hd|]. split; [exact H2|].
  destruct (proj1 (growth_last_minus_first sort_asc_ins sort_asc_ins_perm sort_asc_ins_sorted
                     0 10 ["C"; "D"] ex_readings "C") Hd H2)
    as [g [first_row [rest [Hin [Hg [E [_ [_ [Hgr _]]]]]]]]].
  exists g. split; [exact Hin|]. split; [exact Hg|].
  rewrite Hgr. vm_compute in E. injection E as <- <-. reflexivity.
Defined.

(** Witness for C6, on drive C of the sample readings (one day apart). *)
Lemma growth_avg_daily_witness :
  In "C" ["C"; "D"] /\
  (2 <= List.length (filter (fun r => String.eqb (Drive r) "C")
                       (main_filter 0 10 ["C"; "D"] ex_readings)))%nat /\
  exists g, In g (growth_data sort_asc_ins ["C"; "D"] (main_filter 0 10 ["C"; "D"] ex_readings))
            /\ gDrive g = "C".
Proof.
  assert (Hd : In "C" ["C"; "D"]) by (now left).
  assert (H2 : (2 <= List.length (filter (fun r => String.eqb (Drive r) "C")
                                   (main_filter 0 10 ["C"; "D"] ex_readings)))%nat)
    by (vm_compute; lia).
  split; [exact Hd|]. split; [exact H2|].
  destruct (growth_avg_daily sort_asc_ins sort_asc_ins_perm sort_asc_ins_sorted
              0 10 ["C"; "D"] ex_readings "C" Hd H2)
    as [g [first_row [rest [Hin [Hg _]]]]].
  exists g. split; [exact Hin|exact Hg].
Defined.

(** ** Table search *)

(** C7 (code): the query is used as a regular expression, not as a
    substring. The query [^] is found in no column of [ex_row], yet the
    search keeps the row, because the pattern [^] matches every string. *)
Lemma search_query_is_regex :
  row_mask "^" ex_row = Some true /\ spec_row_match "^" ex_row = false.
Proof. vm_compute. split; reflexivity. Qed.

(** * Further properties of the page *)

(** ** Helper lemmas *)

Lemma existsb_eqb_In (x : string) (l : list string) :
  existsb (String.eqb x) l = true <-> In x l.
Proof.
  rewrite existsb_exists. split.
  - intros [y [Hy Hxy]]. apply String.eqb_eq in Hxy. now subst.
  - intro H. exists x. split; [exact H|]. apply String.eqb_refl.
Qed.

Lemma unique_aux_In (seen l : list string) (x : string) :
  In x (unique_aux seen l) <-> In x l /\ ~ In x seen.
Proof.
  revert seen. induction l as [|y l IH]; intro seen; simpl; [tauto|].
  destruct (existsb (String.eqb y) seen) eqn:E.
  - apply existsb_eqb_In in E. rewrite IH. split.
    + intros [Hx Hs]. tauto.
    + intros [[<-|Hx] Hs]; [contradiction|tauto].
  - simpl. rewrite IH. simpl. split.
    + intros [<-|[Hx Hs]]; [split; [now left|]|tauto].
      intro Hin. apply existsb_eqb_In in Hin. congruence.
    + intros [[<-|Hx] Hs]; [now left|].
      destruct (string_dec y x) as [->|Hne]; [now left|right]. split; [exact Hx|].
      intros [Heq|Hin]; [congruence|contradiction].
Qed.

Lemma unique_aux_NoDup (seen l : list string) : NoDup (unique_aux seen l).
Proof.
  revert seen. induction l as [|y l IH]; intro seen; simpl; [constructor|].
  destruct (existsb (String.eqb y) seen); [apply IH|].
  constructor; [|apply IH]. rewrite unique_aux_In. intros [_ Hs]. apply Hs. now left.
Qed.

Lemma unique_In (l : list string) (x : string) : In x (unique l) <-> In x l.
Proof. unfold unique. rewrite unique_aux_In. simpl. tauto. Qed.

Lemma filter_id_all {A : Type} (f : A -> bool) (l : list A) :
  (forall x, In x l -> f x = true) -> filter f l = l.
Proof.
  induction l as [|x l IH]; intro H; simpl; [reflexivity|].
  rewrite (H x (or_introl eq_refl)), IH; [reflexivity|]. intros y Hy. apply H. now right.
Qed.

Lemma filter_idem {A : Type} (f : A -> bool) (l : list A) :
  filter f (filter f l) = filter f l.
Proof.
  apply filter_id_all. intros x Hx. now apply filter_In in Hx.
Qed.

Lemma drive_filter_idem (sel : list string) (l : dataframe) :
  drive_filter (Some sel) (drive_filter (Some sel) l) = drive_filter (Some sel) l.
Proof.
  unfold drive_filter. destruct (truthy (Some sel)); [apply filter_idem|reflexivity].
Qed.

Lemma main_filter_nil (s e : Z) (sel : list string) : main_filter s e sel [] = [].
Proof. unfold main_filter. apply drive_filter_nil. Qed.

Lemma main_page_report (sort_desc sort_asc : dataframe -> dataframe) (df : dataframe)
    (start_date end_date : Z) (sel : list string) :
  main_filter start_date end_date sel df <> [] ->
  exists st, get_latest_stats sort_desc (main_filter start_date end_date sel df) (Some sel)
               = Some st /\
    main_page sort_desc sort_asc df start_date end_date sel =
      Report (main_filter start_date end_date sel df) st
             (growth_data sort_asc sel (main_filter start_date end_date sel df)).
Proof.
  intro Hne.
  assert (Hne' : drive_filter (Some sel) (main_filter start_date end_date sel df) <> [])
    by (unfold main_filter; rewrite drive_filter_idem; exact Hne).
  rewrite (get_latest_stats_unfold sort_desc _ _ Hne'). eexists. split; [reflexivity|].
  unfold main_page. destruct df as [|r0 rs]; [now rewrite main_filter_nil in Hne|].
  cbv zeta. rewrite (get_latest_stats_unfold sort_desc _ _ Hne').
  destruct (main_filter start_date end_date sel (r0 :: rs)); [contradiction|reflexivity].
Qed.

(** ** [main] *)

(** The outcome of [main]: the first warning exactly for an empty dataset,
    the second exactly when the filters leave nothing of a non-empty
    dataset, otherwise the report over the filtered rows; the error
    "Unable to calculate statistics" is never reached. *)
Theorem main_page_outcomes (sort_desc sort_asc : dataframe -> dataframe) (df : dataframe)
    (start_date end_date : Z) (sel : list string) :
  let filtered_df := main_filter start_date end_date sel df in
  (main_page sort_desc sort_asc df start_date end_date sel = NoData <-> df = []) /\
  (main_page sort_desc sort_asc df start_date end_date sel = NoFilteredData <->
     df <> [] /\ filtered_df = []) /\
  main_page sort_desc sort_asc df start_date end_date sel <> StatsError /\
  (filtered_df <> [] ->
   exists st, get_latest_stats sort_desc filtered_df (Some sel) = Some st /\
     main_page sort_desc sort_asc df start_date end_date sel =
       Report filtered_df st (growth_data sort_asc sel filtered_df)).
Proof.
  cbv zeta.
  pose proof (main_page_report sort_desc sort_asc df start_date end_date sel) as Hrep.
  destruct (main_filter start_date end_date sel df) eqn:Ef.
  - assert (Hp : main_page sort_desc sort_asc df start_date end_date sel =
                 match df with [] => NoData | _ => NoFilteredData end).
    { unfold main_page. destruct df; [reflexivity|]. cbv zeta. now rewrite Ef. }
    rewrite Hp. destruct df; repeat split; try discriminate; try tauto; congruence.
  - destruct (Hrep ltac:(discriminate)) as [st [Hst Hm]]. rewrite Hm.
    repeat split; try discriminate; try tauto.
    + intro H. subst df. now rewrite main_filter_nil in Ef.
    + intros [_ H]. discriminate.
    + intros _. exists st. split; [exact Hst|reflexivity].
Qed.

Lemma date_filter_range_all (today : Z) (df : dataframe) :
  date_filter (fst (get_date_range today df)) (snd (get_date_range today df)) df = df.
Proof.
  destruct df as [|r0 rs]; [reflexivity|].
  destruct (fold_min_spec (map Date rs) (Date r0)) as [_ Hmin].
  destruct (fold_max_spec (map Date rs) (Date r0)) as [_ Hmax].
  apply filter_id_all. intros r Hr. simpl. unfold list_min, list_max.
  assert (Hd : In (Date r) (Date r0 :: map Date rs))
    by (change (In (Date r) (map Date (r0 :: rs))); now apply in_map).
  apply andb_true_iff. split; apply Z.leb_le, to_date_mono; auto.
Qed.

Lemma restrict_all_drives (df l : dataframe) :
  (forall r, In r l -> In r df) -> restrict (all_drives df) l = l.
Proof.
  intro Hsub. apply filter_id_all. intros r Hr. unfold isin. apply existsb_eqb_In.
  unfold all_drives. eapply Permutation_in; [symmetry; apply sort_str_perm|].
  apply unique_In. apply in_map. now apply Hsub.
Qed.

(** With the widgets at their defaults (the date range of the data and every
    drive), a non-empty dataset is filtered to itself and [main] renders the
    report over all of it. *)
Theorem main_defaults_report_all (sort_desc sort_asc : dataframe -> dataframe)
    (today : Z) (df : dataframe) (Hne : df <> []) :
  let start_date := fst (get_date_range today df) in
  let end_date := snd (get_date_range today df) in
  main_filter start_date end_date (all_drives df) df = df /\
  exists st, main_page sort_desc sort_asc df start_date end_date (all_drives df) =
             Report df st (growth_data sort_asc (all_drives df) df).
Proof.
  cbv zeta.
  assert (Hf : main_filter (fst (get_date_range today df)) (snd (get_date_range today df))
                 (all_drives df) df = df).
  { unfold main_filter. rewrite date_filter_range_all. unfold drive_filter.
    destruct (truthy (Some (all_drives df))); [|reflexivity].
    apply restrict_all_drives. tauto. }
  split; [exact Hf|].
  destruct (main_page_report sort_desc sort_asc df (fst (get_date_range today df))
              (snd (get_date_range today df)) (all_drives df)) as [st [_ Hm]].
  { now rewrite Hf. }
  rewrite Hf in Hm. exists st. exact Hm.
Qed.

(** With every drive deselected the multiselect is empty and falsy: [main]
    applies no drive filter, so the report covers every drive of the date
    window, while the growth analysis, which loops over the selection, has no
    row. *)
Theorem main_empty_selection (sort_desc sort_asc : dataframe -> dataframe)
    (df : dataframe) (start_date end_date : Z)
    (Hne : date_filter start_date end_date df <> []) :
  exists st, main_page sort_desc sort_asc df start_date end_date [] =
             Report (date_filter start_date end_date df) st [].
Proof.
  destruct (main_page_report sort_desc sort_asc df start_date end_date []) as [st [_ Hm]].
  { exact Hne. }
  exists st. exact Hm.
Qed.

(** ** Trend traces (tab 1) *)

Lemma filter_split_perm {A : Type} (f : A -> bool) (l : list A) :
  Permutation (filter f l ++ filter (fun x => negb (f x)) l) l.
Proof.
  induction l as [|x l IH]; simpl; [reflexivity|].
  destruct (f x); simpl.
  - now apply perm_skip.
  - rewrite <- Permutation_middle. now apply perm_skip.
Qed.

Lemma flat_map_ext_In {A B : Type} (f g : A -> list B) (l : list A) :
  (forall x, In x l -> f x = g x) -> flat_map f l = flat_map g l.
Proof.
  induction l as [|x l IH]; intro H; simpl; [reflexivity|].
  rewrite (H x (or_introl eq_refl)), IH; [reflexivity|]. intros y Hy. apply H. now right.
Qed.

Lemma filter_drive_other (k k' : string) (l : dataframe) :
  k' <> k ->
  filter (fun r => String.eqb (Drive r) k') (filter (fun r => negb (String.eqb (Drive r) k)) l)
  = filter (fun r => String.eqb (Drive r) k') l.
Proof.
  intro Hne. induction l as [|r l IH]; simpl; [reflexivity|].
  destruct (String.eqb (Drive r) k) eqn:E; simpl.
  - apply String.eqb_eq in E. rewrite IH.
    destruct (String.eqb (Drive r) k') eqn:E'; [|reflexivity].
    apply String.eqb_eq in E'. congruence.
  - destruct (String.eqb (Drive r) k'); now rewrite IH.
Qed.

(** Splitting rows by a duplicate-free list of keys covering their drives
    loses and duplicates nothing. *)
Lemma flat_map_filter_drives (keys : list string) (l : dataframe) :
  NoDup keys -> (forall r, In r l -> In (Drive r) keys) ->
  Permutation (flat_map (fun k => filter (fun r => String.eqb (Drive r) k) l) keys) l.
Proof.
  revert l. induction keys as [|k keys IH]; intros l Hnd Hcov; simpl.
  - destruct l as [|r l]; [reflexivity|]. destruct (Hcov r (or_introl eq_refl)).
  - apply NoDup_cons_iff in Hnd as [Hk Hnd].
    rewrite (flat_map_ext_In _
               (fun k' => filter (fun r => String.eqb (Drive r) k')
                            (filter (fun r => negb (String.eqb (Drive r) k)) l))).
    + rewrite IH; [apply filter_split_perm|exact Hnd|].
      intros r Hr. apply filter_In in Hr as [Hr Hd]. apply negb_true_iff, String.eqb_neq in Hd.
      destruct (Hcov r Hr) as [Heq|Hin]; [congruence|exact Hin].
    + intros k' Hk'. symmetry. apply filter_drive_other. congruence.
Qed.

Section TraceProps.

Variable sort_asc : dataframe -> dataframe.
Hypothesis sort_asc_perm : forall l, Permutation l (sort_asc l).
Hypothesis sort_asc_sorted :
  forall l, Sorted (fun a b => (Date a <= Date b)%Z) (sort_asc l).

(** Tab 1 draws one trace per drive of the filtered rows: every filtered
    reading lies on exactly one trace (the traces together are a permutation
    of the filtered rows), each trace holds the readings of its own drive
    only, in date order, and no drive gets two traces. *)
Theorem trend_traces_partition (filtered_df : dataframe) :
  Permutation (flat_map snd (trend_traces sort_asc filtered_df)) filtered_df /\
  NoDup (map fst (trend_traces sort_asc filtered_df)) /\
  forall drive rows, In (drive, rows) (trend_traces sort_asc filtered_df) ->
    rows <> [] /\
    Sorted (fun a b => (Date a <= Date b)%Z) rows /\
    forall r, In r rows -> Drive r = drive.
Proof.
  unfold trend_traces. split; [|split].
  - transitivity (flat_map (fun k => filter (fun r => String.eqb (Drive r) k) filtered_df)
                           (unique (map Drive filtered_df))).
    + clear sort_asc_sorted. induction (unique (map Drive filtered_df)) as [|k ks IH];
        simpl; [reflexivity|].
      apply Permutation_app; [symmetry; apply sort_asc_perm|exact IH].
    + apply flat_map_filter_drives; [apply unique_aux_NoDup|].
      intros r Hr. apply unique_In. now apply in_map.
  - rewrite map_map. cbn [fst]. rewrite map_id. apply unique_aux_NoDup.
  - intros drive rows Hin. apply in_map_iff in Hin as [k [Hk Hkin]].
    injection Hk as <- <-. split; [|split; [apply sort_asc_sorted|]].
    + apply unique_In, in_map_iff in Hkin as [r [Hr Hrin]].
      intro Hnil. assert (Hr' : In r (sort_asc (filter (fun x => String.eqb (Drive x) k)
                                                  filtered_df))).
      { eapply Permutation_in; [apply sort_asc_perm|]. apply filter_In.
        split; [exact Hrin|]. now apply String.eqb_eq. }
      rewrite Hnil in Hr'. destruct Hr'.
    + intros r Hr. apply (Permutation_in _ (Permutation_sym (sort_asc_perm _))) in Hr.
      apply filter_In in Hr as [_ Hd]. now apply String.eqb_eq.
Qed.

End TraceProps.

(** ** Aggregates of [get_latest_stats] *)

Lemma get_latest_stats_some (sort_desc : dataframe -> dataframe) (df : dataframe)
    (sel : option (list string)) (st : stats) :
  get_latest_stats sort_desc df sel = Some st ->
  drive_filter sel df <> [] /\
  st = let latest := groupby_first (sort_desc (drive_filter sel df)) in
       {| total_size := sumQ (map TotalSizeGB latest);
          total_used := sumQ (map UsedSpaceGB latest);
          total_free := sumQ (map FreeSpaceGB latest);
          avg_free_percent := meanQ (map FreeSpacePercent latest);
          critical_drives :=
            List.length (filter (fun r => Qltb (FreeSpacePercent r) 10) latest);
          latest_data := latest |}.
Proof.
  intro H.
  assert (Hne : drive_filter sel df <> []).
  { intro Hnil. unfold get_latest_stats in H.
    destruct df; [discriminate|]. now rewrite Hnil in H. }
  split; [exact Hne|]. rewrite (get_latest_stats_unfold sort_desc df sel Hne) in H.
  now injection H as <-.
Qed.

Lemma drive_filter_sub (sel : option (list string)) (df : dataframe) (r : reading) :
  In r (drive_filter sel df) -> In r df.
Proof.
  unfold drive_filter. destruct (truthy sel); [|tauto].
  intro H. now apply filter_In in H.
Qed.


Lemma sumQ_bounds (l : list Q) :
  (forall x, In x l -> 0 <= x <= 100) ->
  0 <= sumQ l /\ sumQ l <= 100 * inject_Z (Z.of_nat (List.length l)).
Proof.
  induction l as [|x l IH]; intro H; simpl; [split; [apply Qle_refl|discriminate]|].
  destruct (IH (fun y Hy => H y (or_intror Hy))) as [H0 H1].
  destruct (H x (or_introl eq_refl)) as [Hx0 Hx1].
  rewrite Zpos_P_of_succ_nat, <- Z.add_1_r, inject_Z_plus. simpl (inject_Z 1).
  unfold sumQ in *. change (inject_Z 1) with (1#1). split; lra.
Qed.

Lemma groupby_first_nonempty (l : dataframe) : l <> [] -> groupby_first l <> [].
Proof.
  intros Hne Hnil. destruct l as [|r l]; [contradiction|].
  assert (Hk : In (Drive r) (group_keys (r :: l))) by (apply group_keys_In; now left).
  rewrite <- groupby_first_drives, Hnil in Hk. destruct Hk.
Qed.

Section AggregateProps.

Variable sort_desc : dataframe -> dataframe.
Hypothesis sort_desc_perm : forall l, Permutation l (sort_desc l).

Lemma latest_rows_from_input (df : dataframe) (sel : option (list string)) (st : stats) :
  get_latest_stats sort_desc df sel = Some st ->
  forall r, In r (latest_data st) -> In r df.
Proof.
  intros H r Hr. apply get_latest_stats_some in H as [_ ->]. cbn in Hr.
  apply groupby_first_In in Hr as [Hr _].
  apply (Permutation_in _ (Permutation_sym (sort_desc_perm _))) in Hr.
  now apply drive_filter_sub in Hr.
Qed.


(** When every reading's free percentage lies in [0, 100], so does the
    "Avg Free Space" metric. *)
Theorem get_latest_stats_avg_in_range (df : dataframe) (sel : option (list string))
    (st : stats)
    (Hrows : forall r, In r df -> 0 <= FreeSpacePercent r <= 100)
    (Hst : get_latest_stats sort_desc df sel = Some st) :
  0 <= avg_free_percent st <= 100.
Proof.
  pose proof (latest_rows_from_input df sel st Hst) as Hsub.
  apply get_latest_stats_some in Hst as [Hne Hst]. rewrite Hst in Hsub |- *. cbn in *.
  set (latest := groupby_first (sort_desc (drive_filter sel df))) in *.
  assert (Hlat : latest <> []).
  { apply groupby_first_nonempty. intro Hnil.
    apply Hne, Permutation_nil. rewrite <- Hnil. symmetry. apply sort_desc_perm. }
  destruct (sumQ_bounds (map FreeSpacePercent latest)) as [H0 H1].
  { intros x Hx. apply in_map_iff in Hx as [r [<- Hr]]. apply Hrows, Hsub, Hr. }
  unfold meanQ. rewrite length_map in *.
  assert (Hn : 0 < inject_Z (Z.of_nat (List.length latest))).
  { destruct latest as [|r l]; [contradiction|]. simpl List.length.
    unfold Qlt. simpl. lia. }
  split.
  - apply Qle_shift_div_l; [exact Hn|]. rewrite Qmult_0_l. exact H0.
  - apply Qle_shift_div_r; [exact Hn|]. exact H1.
Qed.

End AggregateProps.

(** The "Critical Drives" metric counts exactly the drives whose status card
    reads Emergency or Critical, so it never exceeds the number of drives. *)
Theorem critical_drives_status_cards (sort_desc : dataframe -> dataframe)
    (df : dataframe) (sel : option (list string)) (st : stats)
    (Hst : get_latest_stats sort_desc df sel = Some st) :
  critical_drives st =
    List.length (filter (fun r => String.eqb (get_status_text (FreeSpacePercent r)) "Emergency"
                                  || String.eqb (get_status_text (FreeSpacePercent r)) "Critical")
                        (latest_data st)) /\
  (critical_drives st <= List.length (latest_data st))%nat.
Proof.
  apply get_latest_stats_some in Hst as [_ ->]. cbn. split.
  - f_equal. apply filter_ext. intro r. unfold get_status_text.
    destruct (Qltb (FreeSpacePercent r) 5) eqn:H5.
    + apply Qltb_spec in H5. assert (H10 : FreeSpacePercent r < 10) by lra.
      apply Qltb_spec in H10. now rewrite H10.
    + destruct (Qltb (FreeSpacePercent r) 10); [reflexivity|].
      now destruct (Qltb (FreeSpacePercent r) 20).
  - induction (groupby_first (sort_desc (drive_filter sel df))) as [|r l IH]; simpl; [lia|].
    destruct (Qltb (FreeSpacePercent r) 10); simpl; lia.
Qed.

(** ** Witnesses of the page properties, on the sample readings *)

Lemma main_defaults_report_all_witness :
  ex_readings <> [] /\
  main_filter (fst (get_date_range 0 ex_readings)) (snd (get_date_range 0 ex_readings))
              (all_drives ex_readings) ex_readings = ex_readings.
Proof.
  split; [discriminate|].
  exact (proj1 (main_defaults_report_all sort_desc_ins sort_asc_ins 0 ex_readings
                  ltac:(discriminate))).
Defined.

Lemma main_empty_selection_witness :
  date_filter 0 10 ex_readings <> [] /\
  exists st, main_page sort_desc_ins sort_asc_ins ex_readings 0 10 [] =
             Report (date_filter 0 10 ex_readings) st [].
Proof.
  split; [discriminate|].
  exact (main_empty_selection sort_desc_ins sort_asc_ins ex_readings 0 10 ltac:(discriminate)).
Defined.

Lemma trend_traces_partition_witness :
  Permutation (flat_map snd (trend_traces sort_asc_ins ex_readings)) ex_readings.
Proof.
  exact (proj1 (trend_traces_partition sort_asc_ins sort_asc_ins_perm sort_asc_ins_sorted
                  ex_readings)).
Defined.


Lemma ex_readings_percent (r : reading) :
  In r ex_readings -> 0 <= FreeSpacePercent r <= 100.
Proof. intros [<-|[<-|[<-|[]]]]; split; discriminate. Qed.


Lemma get_latest_stats_avg_in_range_witness :
  (forall r, In r ex_readings -> 0 <= FreeSpacePercent r <= 100) /\
  exists st, get_latest_stats sort_desc_ins ex_readings None = Some st /\
             0 <= avg_free_percent st <= 100.
Proof.
  split; [exact ex_readings_percent|].
  destruct (get_latest_stats sort_desc_ins ex_readings None) as [st|] eqn:E.
  - exists st. split; [reflexivity|].
    exact (get_latest_stats_avg_in_range sort_desc_ins sort_desc_ins_perm ex_readings None
             st ex_readings_percent E).
  - vm_compute in E. discriminate E.
Defined.

Lemma critical_drives_status_cards_witness :
  exists st, get_latest_stats sort_desc_ins ex_readings None = Some st /\
             (critical_drives st <= List.length (latest_data st))%nat.
Proof.
  destruct (get_latest_stats sort_desc_ins ex_readings None) as [st|] eqn:E.
  - exists st. split; [reflexivity|].
    exact (proj2 (critical_drives_status_cards sort_desc_ins ex_readings None st E)).
  - vm_compute in E. discriminate E.
Defined.

(** ** The data table (tab 4) *)

Section TableProps.

Variable sort_desc : dataframe -> dataframe.
Hypothesis sort_desc_perm : forall l, Permutation l (sort_desc l).
Hypothesis sort_desc_sorted :
  forall l, Sorted (fun a b => (Date b <= Date a)%Z) (sort_desc l).


End TableProps.

